(** * Quansight website: the CMS glue of the labs app

    A shallow embedding of
    - the sticky-notes prop adapter [getStickyNotesProps],
    - the raw blok union [TRawBlok],
    - the dynamic route [pages/[slug]/index.tsx]: the page component
      [Container] and the two static generation hooks [getStaticPaths]
      and [getStaticProps].

    Records list the fields the code reads.  Values the code treats as
    possibly absent are wrapped in [Maybe]; a property read on an absent
    value raises [TypeError], as the runtime does. *)

From stdpp Require Import base option list strings.

Set Warnings "-register-all".

(** ** JavaScript values and exceptions *)

Module JS.

(** A value that may be [undefined] or [null]. *)
Inductive Maybe (A : Type) : Type :=
| Undefined
| Null
| Value (a : A).
Arguments Undefined {A}.
Arguments Null {A}.
Arguments Value {A} a.

(** What a [throw] or a rejected promise carries.  [TypeError p] is the
    error of reading property [p] of [undefined] or [null]; [Failure r]
    is any other error, told apart by its message. *)
Inductive Exn : Type :=
| TypeError (reading : string)
| Failure (reason : string).

(** The completion of an expression: a value, or an exception. *)
Inductive Result (A : Type) : Type :=
| Ok (a : A)
| Throw (e : Exn).
Arguments Ok {A} a.
Arguments Throw {A} e.

#[global] Instance Result_ret : MRet Result := fun _ a => Ok a.
#[global] Instance Result_bind : MBind Result := fun _ _ f m =>
  match m with
  | Ok a => f a
  | Throw e => Throw e
  end.

(** [o.p]: the member read [read p get o] raises on an absent [o]. *)
Definition read {A B} (p : string) (get : A -> B) (o : Maybe A) : Result B :=
  match o with
  | Value a => Ok (get a)
  | _ => Throw (TypeError p)
  end.

(** [o?.rest]: an optional chain evaluates [rest] on a present [o] and
    short-circuits to [undefined] on an absent one. *)
Definition optional {A B} (rest : A -> Result (Maybe B)) (o : Maybe A)
  : Result (Maybe B) :=
  match o with
  | Value a => rest a
  | _ => Ok Undefined
  end.

(** A destructuring default [{ x = d }] applies to [undefined] only. *)
Definition default_to {A} (d : A) (v : Maybe A) : Maybe A :=
  match v with
  | Undefined => Value d
  | _ => v
  end.

End JS.
Import JS.

(** ** Sticky notes: raw CMS record and UI props *)

Module StickyNotes.

Section WithLink.
(** The CMS link object; its declaration is in the shared library. *)
Context {TLink : Type}.

Record TStickyNotesItemRawData : Type := {
  raw_title : string;
  raw_description : string;
  raw_descriptionSize : string;
  raw_buttonText : string;
  raw_variant : string;
  raw_link : TLink
}.

Record TStickyNotesRawData : Type := {
  data_variant : string;
  data_items : list TStickyNotesItemRawData
}.

Record TStickyNotesItemProps : Type := {
  title : string;
  description : string;
  descriptionSize : string;
  buttonText : string;
  variant : string;
  buttonLink : string
}.

Record TStickyNotesProps : Type := {
  props_variant : string;
  items : list TStickyNotesItemProps
}.

(** [getUrl] of [@quansight/shared/ui-components], a parameter here. *)
Variable getUrl : TLink -> string.

(** The arrow function passed to [data.items.map]. *)
Definition getStickyNotesItemProps (item : TStickyNotesItemRawData)
  : TStickyNotesItemProps :=
  {| title := raw_title item;
     description := raw_description item;
     descriptionSize := raw_descriptionSize item;
     buttonText := raw_buttonText item;
     variant := raw_variant item;
     buttonLink := getUrl (raw_link item) |}.

Definition getStickyNotesProps (data : TStickyNotesRawData)
  : TStickyNotesProps :=
  {| props_variant := data_variant data;
     items := getStickyNotesItemProps <$> data_items data |}.

End WithLink.
Arguments TStickyNotesItemRawData : clear implicits.
Arguments TStickyNotesRawData : clear implicits.

(** Modelled from the spec: [getUrl] of [@quansight/shared/ui-components]
    is not among the sources.  The spec's words about it are that link
    fields are "resolved to absolute URLs"; for a notion [absolute] of
    absolute URL, [resolves_to_absolute absolute getUrl] is that
    contract. *)
Definition resolves_to_absolute {TLink : Type}
    (absolute : string -> Prop) (getUrl : TLink -> string) : Prop :=
  forall link : TLink, absolute (getUrl link).

End StickyNotes.

(** ** Types declared outside the sources

    The raw data of the other bloks, the CMS link and link entry, the
    footer record and the path entry handed to the framework. *)

Class ExternalTypes : Type := {
  TLink : Type;
  THeroRawData : Type;
  TBoardRawData : Type;
  TTeaserRawData : Type;
  TFeatureArticleRawData : Type;
  TFooterItem : Type;
  TLinkEntry : Type;
  TPath : Type
}.

(** ** [types/storyblok/bloks/rawBlok.ts] *)

Module Bloks.

Section WithTypes.
Context `{ExternalTypes}.

(** The union [TRawBlok], in the order of the source; the
    constructor plays the content-type tag of a member. *)
Inductive TRawBlok : Type :=
| OfHero (blok : THeroRawData)
| OfBoard (blok : TBoardRawData)
| OfTeaser (blok : TTeaserRawData)
| OfStickyNotes (blok : StickyNotes.TStickyNotesRawData TLink)
| OfFeatureArticle (blok : TFeatureArticleRawData).

End WithTypes.

End Bloks.

(** ** The content API and asynchronous functions *)

Module Api.

Section WithTypes.
Context `{ExternalTypes}.

Record TPageContent : Type := {
  title : Maybe string;
  description : Maybe string;
  component : Maybe string
}.

Record TPageItem : Type := { content : Maybe TPageContent }.

Record ISlugParams : Type := { slug : string }.

Record TLinkEntries : Type := { items : Maybe (list TLinkEntry) }.

Record TLinksQuery : Type := { Links : Maybe TLinkEntries }.
Record TPageItemQuery : Type := { PageItem : Maybe TPageItem }.
Record TFooterItemQuery : Type := { FooterItem : TFooterItem }.

(** What a query resolves with; the code destructures [{ data }]. *)
Record TResponse (D : Type) : Type := { data : Maybe D }.
Arguments data {D} _.

(** The three queries of [Api], indexed by what they resolve with. *)
Inductive Call : Type -> Type :=
| getLinks : Call (TResponse TLinksQuery)
| getPageItem (variables : ISlugParams) : Call (TResponse TPageItemQuery)
| getFooterItem : Call (TResponse TFooterItemQuery).

(** The promise a call returns: the request it stands for and how it
    settles.  A body learns the latter only by awaiting the promise. *)
Record Promise (X : Type) : Type := {
  request : Call X;
  settled : Result X
}.
Arguments request {X} _.
Arguments settled {X} _.

(** The body of an [async] function: it returns, throws, starts a call
    and holds its promise, or awaits a promise and goes on with what the
    promise resolved with.  There is no constructor for a handler: the
    sources have no [try], [catch] or [.catch]. *)
Inductive Async (A : Type) : Type :=
| Return (a : A)
| Raise (e : Exn)
| Start {X : Type} (call : Call X) (k : Promise X -> Async A)
| Await {X : Type} (promise : Promise X) (k : X -> Async A).
Arguments Return {A} a.
Arguments Raise {A} e.
Arguments Start {A X} call k.
Arguments Await {A X} promise k.

Fixpoint bind {A B} (m : Async A) (f : A -> Async B) : Async B :=
  match m with
  | Return a => f a
  | Raise e => Raise e
  | Start call k => Start call (fun promise => bind (k promise) f)
  | Await promise k => Await promise (fun x => bind (k x) f)
  end.

#[global] Instance Async_ret : MRet Async := fun _ a => Return a.
#[global] Instance Async_bind : MBind Async := fun _ _ f m => bind m f.

(** [await Api.call(...)]: the call is made, then its promise awaited. *)
Definition await {X} (call : Call X) : Async X :=
  Start call (fun promise => Await promise Return).

(** A synchronous step inside the [async] body. *)
Definition lift {A} (r : Result A) : Async A :=
  match r with
  | Ok a => Return a
  | Throw e => Raise e
  end.

(** *** Running an [async] body against a CMS

    The CMS owns a state [World]; a call sees the state, may change
    it, and settles with a value or an error.  An awaited promise that
    was rejected throws in the body, which has nothing to catch it. *)
Section Run.
Context {World : Type}.

Definition Cms : Type := forall X, Call X -> World -> Result X * World.

Inductive Event : Type :=
| Issued {X} (call : Call X)
| Resolved {X} (call : Call X)
| Rejected {X} (call : Call X).

Record Run (A : Type) : Type := {
  outcome : Result A;
  world : World;
  trace : list Event
}.
Arguments outcome {A} _.
Arguments world {A} _.
Arguments trace {A} _.

Fixpoint run {A} (cms : Cms) (m : Async A) (w : World) : Run A :=
  match m with
  | Return a => {| outcome := Ok a; world := w; trace := [] |}
  | Raise e => {| outcome := Throw e; world := w; trace := [] |}
  | Start call k =>
      let '(result, w') := cms _ call w in
      let r := run cms (k {| request := call; settled := result |}) w' in
      {| outcome := outcome r;
         world := world r;
         trace := Issued call :: trace r |}
  | Await promise k =>
      match settled promise with
      | Ok x =>
          let r := run cms (k x) w in
          {| outcome := outcome r;
             world := world r;
             trace := Resolved (request promise) :: trace r |}
      | Throw e =>
          {| outcome := Throw e;
             world := w;
             trace := [Rejected (request promise)] |}
      end
  end.

(** Sequencing of two runs: the second starts in the state the
    first left, unless the first threw. *)
Definition and_then {A B} (r : Run A) (k : A -> World -> Run B) : Run B :=
  match outcome r with
  | Ok a =>
      let r' := k a (world r) in
      {| outcome := outcome r';
         world := world r';
         trace := trace r ++ trace r' |}
  | Throw e =>
      {| outcome := Throw e; world := world r; trace := trace r |}
  end.
End Run.

End WithTypes.
Arguments data {D} _.
Arguments Return {_ A} a.
Arguments Raise {_ A} e.
Arguments Start {_ A X} call k.
Arguments Await {_ A X} promise k.
Arguments request {_ X} _.
Arguments settled {_ X} _.
Arguments outcome {_ World A} _.
Arguments world {_ World A} _.
Arguments trace {_ World A} _.
Arguments Cms {_} World.
Arguments Run {_} World A.

End Api.

(** ** [services/getPaths/getPaths] *)

Module Services.

Section WithTypes.
Context `{ExternalTypes}.

(** Modelled from the spec: [getPaths] of [services/getPaths/getPaths]
    is not among the sources.  The spec calls it the static path
    resolver, which "derives the list of page slugs from link data — a
    direct mapping with a filter, O(n) over link entries".  The spec
    names neither the test nor the mapping, so [keep] and [toPath] are
    parameters; the entries are filtered, then mapped.  The spec is
    silent on an absent list: the model reads it as a method call on
    the list does, and raises. *)
Definition getPaths (keep : TLinkEntry -> bool) (toPath : TLinkEntry -> TPath)
    (items : Maybe (list TLinkEntry)) : Result (list TPath) :=
  entries ← read "filter" id items;
  mret (toPath <$> List.filter keep entries).

End WithTypes.

End Services.

(** ** [pages/[slug]/index.tsx] *)

Module SlugPage.
Import Bloks Api.

Section WithTypes.
Context `{ExternalTypes}.

Record TContainerProps : Type := {
  props_data : Maybe TPageItem;
  props_footer : TFooterItem;
  props_preview : Maybe bool
}.

(** [DomainVariant.Labs] is the member the page names. *)
Inductive DomainVariant : Type :=
| Labs
| OtherDomain (name : string).

(** The element tree a component returns.  [Page] takes a render
    function as its child; [Nothing] is the [false] a failed [&&]
    leaves among the children.  The page imports its blok union from
    [types/storyblok/bloks/rawBlock], which is not among the sources;
    the union of [rawBlok.ts] stands for it. *)
Inductive Element : Type :=
| Layout (footer : TFooterItem) (children : list Element)
| SEO (title description : Maybe string) (variant : DomainVariant)
| Page (data : Maybe TPageItem) (preview : Maybe bool)
       (children : TRawBlok -> Element)
| BlokProvider (blok : TRawBlok)
| Nothing.

(** [isPageType] of [services/contentTypes/isPageType], a parameter. *)
Variable isPageType : Maybe string -> bool.

(** [getPaths] of [services/getPaths/getPaths], a parameter. *)
Variable getPaths : Maybe (list TLinkEntry) -> Result (list TPath).

Definition Container (props : TContainerProps) : Result Element :=
  let data := props_data props in
  let footer := props_footer props in
  let preview := props_preview props in
  seo_title ← (c ← read "content" content data; read "title" title c);
  seo_description ← (c ← read "content" content data;
                     read "description" description c);
  tag ← optional (fun d =>
           optional (fun c => Ok (component c)) (content d)) data;
  mret (Layout footer
          [ SEO seo_title seo_description Labs;
            if isPageType tag
            then Page data preview (fun blok => BlokProvider blok)
            else Nothing ]).

Record TStaticPaths : Type := {
  paths : list TPath;
  fallback : bool
}.

Definition getStaticPaths : Async TStaticPaths :=
  response ← await getLinks;
  let data := data response in
  entries ← lift (optional (fun d => read "items" items (Links d)) data);
  resolved ← lift (getPaths entries);
  mret {| paths := resolved; fallback := false |}.

(** The context the framework passes to [getStaticProps]. *)
Record TStaticPropsContext : Type := {
  params : Maybe ISlugParams;
  preview : Maybe bool
}.

(** The context of the route parameter [s] and preview flag [pv]. *)
Definition context_of (s : string) (pv : Maybe bool) : TStaticPropsContext :=
  {| params := Value {| slug := s |}; preview := pv |}.

Record TStaticProps : Type := { props : TContainerProps }.

Definition getStaticProps (context : TStaticPropsContext)
  : Async TStaticProps :=
  the_slug ← lift (read "slug" slug (params context));
  let the_preview := default_to false (preview context) in
  page_response ← await (getPageItem {| slug := the_slug |});
  let data := data page_response in
  footer_response ← await getFooterItem;
  let footer := Api.data footer_response in
  page ← lift (read "PageItem" PageItem data);
  foot ← lift (read "FooterItem" FooterItem footer);
  mret {| props := {| props_data := page;
                      props_footer := foot;
                      props_preview := the_preview |} |}.

End WithTypes.

End SlugPage.

(** ** A concrete site, for running the definitions *)

Module Example.
Import Api.

Record LinkEntry : Type := { entry_slug : string; isFolder : bool }.

Definition types : ExternalTypes :=
  {| TLink := string;
     THeroRawData := string;
     TBoardRawData := string;
     TTeaserRawData := string;
     TFeatureArticleRawData := string;
     TFooterItem := string;
     TLinkEntry := LinkEntry;
     TPath := ISlugParams |}.

Definition getUrl (link : string) : string :=
  "https://labs.quansight.org/" +:+ link.

Definition absolute (url : string) : Prop :=
  String.prefix "https://" url = true.

Definition note (name : string) : StickyNotes.TStickyNotesItemRawData string :=
  {| StickyNotes.raw_title := name;
     StickyNotes.raw_description := "about " +:+ name;
     StickyNotes.raw_descriptionSize := "small";
     StickyNotes.raw_buttonText := "Read";
     StickyNotes.raw_variant := "yellow";
     StickyNotes.raw_link := "projects/" +:+ name |}.

Definition notes : StickyNotes.TStickyNotesRawData string :=
  {| StickyNotes.data_variant := "wide";
     StickyNotes.data_items := [note "numpy"; note "scipy"] |}.

#[local] Existing Instance types.

(** The page type test and the path resolver of the example. *)
Definition isPageType (tag : Maybe string) : bool :=
  match tag with
  | Value t => String.eqb t "page"
  | _ => false
  end.

Definition keep (entry : LinkEntry) : bool := negb (isFolder entry).
Definition toPath (entry : LinkEntry) : ISlugParams :=
  {| slug := entry_slug entry |}.

Definition getPaths : Maybe (list LinkEntry) -> Result (list ISlugParams) :=
  Services.getPaths keep toPath.

Definition entries : list LinkEntry :=
  [ {| entry_slug := "about"; isFolder := false |};
    {| entry_slug := "blog"; isFolder := true |};
    {| entry_slug := "team"; isFolder := false |} ].

Definition about : TPageItem :=
  {| content := Value {| title := Value "About";
                         description := Value "About the lab";
                         component := Value "page" |} |}.

Definition article : TPageItem :=
  {| content := Value {| title := Value "News";
                         description := Undefined;
                         component := Value "article" |} |}.

Definition props (data : Maybe TPageItem) : SlugPage.TContainerProps :=
  {| SlugPage.props_data := data;
     SlugPage.props_footer := "footer";
     SlugPage.props_preview := Value false |}.

(** A CMS that counts the calls it has served and knows one page. *)
Definition cms : Cms nat := fun X call served =>
  match call in Call X return Result X * nat with
  | getLinks =>
      (Ok {| data := Value {| Links := Value {| items := Value entries |} |} |},
       S served)
  | getPageItem variables =>
      (if String.eqb (slug variables) "about"
       then Ok {| data := Value {| PageItem := Value about |} |}
       else Throw (Failure "page not found"),
       S served)
  | getFooterItem =>
      (Ok {| data := Value {| FooterItem := "footer" |} |}, S served)
  end.

(** A CMS whose footer query fails. *)
Definition footer_down : Cms nat := fun X call served =>
  match call in Call X return Result X * nat with
  | getFooterItem => (Throw (Failure "footer unavailable"), S served)
  | other => cms _ other served
  end.

(** A CMS that cannot be reached. *)
Definition offline : Cms nat := fun X call served =>
  (Throw (Failure "network"), served).

End Example.

(** ** Answers at the corners of the API's types *)

Module Corner.
Import Api.

#[local] Existing Instance Example.types.

(** A CMS that resolves every query without [data]. *)
Definition no_data : Cms nat := fun X call served =>
  match call in Call X return Result X * nat with
  | getLinks => (Ok {| data := Null |}, S served)
  | getPageItem _ => (Ok {| data := Undefined |}, S served)
  | getFooterItem => (Ok {| data := Undefined |}, S served)
  end.

(** A CMS that has no page for any slug: [PageItem] is null. *)
Definition unknown_page : Cms nat := fun X call served =>
  match call in Call X return Result X * nat with
  | getPageItem _ => (Ok {| data := Value {| PageItem := Null |} |}, S served)
  | other => Example.cms _ other served
  end.

(** A CMS whose links query has [data] but no [Links]. *)
Definition no_links : Cms nat := fun X call served =>
  match call in Call X return Result X * nat with
  | getLinks => (Ok {| data := Value {| Links := Null |} |}, S served)
  | other => Example.cms _ other served
  end.

(** A CMS whose footer query resolves without [data]. *)
Definition footer_without_data : Cms nat := fun X call served =>
  match call in Call X return Result X * nat with
  | getFooterItem => (Ok {| data := Null |}, S served)
  | other => Example.cms _ other served
  end.

(** A resolver that answers an absent list with no paths. *)
Definition lenient_getPaths (entries : Maybe (list Example.LinkEntry))
  : Result (list ISlugParams) :=
  match entries with
  | Value l => Ok (Example.toPath <$> List.filter Example.keep l)
  | _ => Ok []
  end.

End Corner.

(** * Properties *)

(** ** The sticky-notes adapter *)

Module StickyNotesSpec.
Import StickyNotes.

Section WithLink.
Context {TLink : Type} (getUrl : TLink -> string).

Lemma getStickyNotesItemProps_absolute (absolute : string -> Prop) item :
  resolves_to_absolute absolute getUrl ->
  absolute (buttonLink (getStickyNotesItemProps getUrl item)).
Proof. intros Hurl. apply Hurl. Qed.

End WithLink.

(** C1: the props have the top-level [variant] of the record, and each
    item of the props carries the six fields [title], [description],
    [descriptionSize], [buttonText], [variant] and [buttonLink]: the
    first five are the raw item's, the last is [getUrl] of the raw
    item's [link], an absolute URL when [getUrl] resolves to absolute
    URLs.  (A field of a record is present by typing.) *)
Theorem getStickyNotesProps_fields {TLink : Type}
    (getUrl : TLink -> string) (absolute : string -> Prop)
    (Hurl : resolves_to_absolute absolute getUrl)
    (data : TStickyNotesRawData TLink) :
  props_variant (getStickyNotesProps getUrl data) = data_variant data /\
  Forall2
    (fun item out =>
       title out = raw_title item /\
       description out = raw_description item /\
       descriptionSize out = raw_descriptionSize item /\
       buttonText out = raw_buttonText item /\
       variant out = raw_variant item /\
       buttonLink out = getUrl (raw_link item) /\
       absolute (buttonLink out))
    (data_items data) (items (getStickyNotesProps getUrl data)).
Proof.
  split; [reflexivity|].
  cbn [getStickyNotesProps items].
  induction (data_items data) as [|item rest IH]; constructor; [|exact IH].
  repeat split.
  by apply getStickyNotesItemProps_absolute.
Qed.

Lemma getStickyNotesProps_fields_witness :
  props_variant (getStickyNotesProps Example.getUrl Example.notes) = "wide" /\
  Forall2
    (fun item out =>
       title out = raw_title item /\
       description out = raw_description item /\
       descriptionSize out = raw_descriptionSize item /\
       buttonText out = raw_buttonText item /\
       variant out = raw_variant item /\
       buttonLink out = Example.getUrl (raw_link item) /\
       Example.absolute (buttonLink out))
    (data_items Example.notes)
    (items (getStickyNotesProps Example.getUrl Example.notes)).
Proof.
  apply (getStickyNotesProps_fields Example.getUrl Example.absolute).
  intros link. reflexivity.
Defined.

(** C2: the output [items] has the length of the input [items], and for
    every index the output item there is the conversion of the input
    item at the same index (none where the input has none). *)
Theorem getStickyNotesProps_items_in_order {TLink : Type}
    (getUrl : TLink -> string) (data : TStickyNotesRawData TLink) :
  length (items (getStickyNotesProps getUrl data)) = length (data_items data) /\
  forall i : nat,
    items (getStickyNotesProps getUrl data) !! i
    = getStickyNotesItemProps getUrl <$> data_items data !! i.
Proof.
  split.
  - apply length_fmap.
  - intros i. apply list_lookup_fmap.
Qed.

End StickyNotesSpec.

(** ** The dynamic route *)

Module SlugPageSpec.
Import Bloks Api SlugPage.

Section WithTypes.
Context `{ExternalTypes} {World : Type}.
Implicit Types (cms : Cms World) (w : World) (e : Exn).

Lemma run_bind {A B} cms (m : Async A) (f : A -> Async B) w :
  run cms (m ≫= f) w = and_then (run cms m w) (fun a w' => run cms (f a) w').
Proof.
  revert w. induction m as [a|e|X call k IH|X promise k IH]; intros w.
  - cbn. by destruct (run cms (f a) w).
  - reflexivity.
  - change (run cms (Start call (fun promise => k promise ≫= f)) w
            = and_then (run cms (Start call k) w)
                       (fun a w' => run cms (f a) w')).
    cbn [run]. destruct (cms X call w) as [result w'].
    rewrite IH. unfold and_then. cbn [outcome world trace].
    by destruct (outcome (run cms (k _) w')).
  - change (run cms (Await promise (fun x => k x ≫= f)) w
            = and_then (run cms (Await promise k) w)
                       (fun a w' => run cms (f a) w')).
    cbn [run]. destruct (settled promise) as [x|e]; [|reflexivity].
    rewrite IH. unfold and_then. cbn [outcome world trace].
    by destruct (outcome (run cms (k x) w)).
Qed.

(** An exception of the first part of a sequence is the outcome of
    the whole: nothing after it runs. *)
Lemma run_bind_throw {A B} cms (m : Async A) (f : A -> Async B) w e :
  outcome (run cms m w) = Throw e ->
  run cms (m ≫= f) w
  = {| outcome := Throw e;
       world := world (run cms m w);
       trace := trace (run cms m w) |}.
Proof. intros Hm. rewrite run_bind. unfold and_then. by rewrite Hm. Qed.

Lemma run_await_rejected {X} cms (call : Call X) w e w' :
  cms _ call w = (Throw e, w') ->
  run cms (await call) w
  = {| outcome := Throw e; world := w';
       trace := [Issued call; Rejected call] |}.
Proof. intros Hcall. cbn. by rewrite Hcall. Qed.

Lemma run_await_resolved {X} cms (call : Call X) w x w' :
  cms _ call w = (Ok x, w') ->
  run cms (await call) w
  = {| outcome := Ok x; world := w';
       trace := [Issued call; Resolved call] |}.
Proof. intros Hcall. cbn. by rewrite Hcall. Qed.

End WithTypes.

#[local] Ltac fetch cms call w :=
  let x := fresh "response" in
  let e := fresh "e" in
  let w' := fresh "w" in
  let Hcall := fresh "Hcall" in
  destruct (cms _ call w) as [[x|e] w'] eqn:Hcall.

Section Hooks.
Context `{ExternalTypes} {World : Type}.
Implicit Types (cms : Cms World) (w : World).

(** [getStaticPaths] once [getLinks] has resolved. *)
Lemma getStaticPaths_resolved cms w getPaths response w1 :
  cms _ getLinks w = (Ok response, w1) ->
  run cms (getStaticPaths getPaths) w
  = {| outcome :=
         entries ← optional (fun d => read "items" items (Links d))
                            (data response);
         resolved ← getPaths entries;
         mret {| paths := resolved; fallback := false |};
       world := w1;
       trace := [Issued getLinks; Resolved getLinks] |}.
Proof.
  intros Hlinks. unfold getStaticPaths. cbn. rewrite Hlinks. cbn.
  destruct (optional _ (data response)) as [entries|e]; [|done]. cbn.
  by destruct (getPaths entries).
Qed.

(** [getStaticProps] once both queries have resolved. *)
Lemma getStaticProps_resolved cms w s pv page_response w1 footer_response w2 :
  cms _ (getPageItem {| slug := s |}) w = (Ok page_response, w1) ->
  cms _ getFooterItem w1 = (Ok footer_response, w2) ->
  run cms (getStaticProps (context_of s pv)) w
  = {| outcome :=
         page ← read "PageItem" PageItem (data page_response);
         foot ← read "FooterItem" FooterItem (data footer_response);
         mret {| props := {| props_data := page;
                             props_footer := foot;
                             props_preview := default_to false pv |} |};
       world := w2;
       trace := [Issued (getPageItem {| slug := s |});
                 Resolved (getPageItem {| slug := s |});
                 Issued getFooterItem;
                 Resolved getFooterItem] |}.
Proof.
  intros Hpage Hfooter. unfold getStaticProps. cbn.
  rewrite Hpage. cbn. rewrite Hfooter. cbn.
  by destruct (data page_response), (data footer_response).
Qed.

(** The path list of the resolver of the spec is drawn from the
    entries, in their order. *)
Lemma filter_sublist {A} (keep : A -> bool) (l : list A) :
  List.filter keep l `sublist_of` l.
Proof.
  induction l as [|x l IH]; cbn; [constructor|].
  destruct (keep x); by constructor.
Qed.

End Hooks.

(** C3: when a CMS query fails with [e], the hook fails with that same
    [e], having issued nothing after the failed query: [getStaticPaths]
    for [getLinks]; [getStaticProps] for [getPageItem], and for
    [getFooterItem] after [getPageItem] resolved. *)
Theorem fetch_failure_propagates `{ExternalTypes} {World : Type}
    (cms : Cms World) (w w' : World) (e : Exn)
    (getPaths : Maybe (list TLinkEntry) -> Result (list TPath)) :
  (cms _ getLinks w = (Throw e, w') ->
   run cms (getStaticPaths getPaths) w
   = {| outcome := Throw e; world := w';
        trace := [Issued getLinks; Rejected getLinks] |}) /\
  (forall s pv,
     cms _ (getPageItem {| slug := s |}) w = (Throw e, w') ->
     run cms (getStaticProps (context_of s pv)) w
     = {| outcome := Throw e; world := w';
          trace := [Issued (getPageItem {| slug := s |});
                    Rejected (getPageItem {| slug := s |})] |}) /\
  (forall s pv page w1,
     cms _ (getPageItem {| slug := s |}) w = (Ok page, w1) ->
     cms _ getFooterItem w1 = (Throw e, w') ->
     run cms (getStaticProps (context_of s pv)) w
     = {| outcome := Throw e; world := w';
          trace := [Issued (getPageItem {| slug := s |});
                    Resolved (getPageItem {| slug := s |});
                    Issued getFooterItem;
                    Rejected getFooterItem] |}).
Proof.
  split; [|split].
  - intros Hlinks. unfold getStaticPaths.
    rewrite (run_bind_throw _ _ _ _ e);
      rewrite (run_await_rejected _ _ _ _ _ Hlinks); reflexivity.
  - intros s pv Hpage. unfold getStaticProps. cbn. by rewrite Hpage.
  - intros s pv page w1 Hpage Hfooter. unfold getStaticProps. cbn.
    rewrite Hpage. cbn. by rewrite Hfooter.
Qed.

Lemma fetch_failure_propagates_witness :
  run Example.offline (getStaticPaths (H:=Example.types) Example.getPaths) 0
  = {| outcome := Throw (Failure "network"); world := 0;
       trace := [Issued getLinks; Rejected getLinks] |} /\
  run Example.cms (getStaticProps (context_of "missing" Undefined)) 0
  = {| outcome := Throw (Failure "page not found"); world := 1;
       trace := [Issued (getPageItem {| slug := "missing" |});
                 Rejected (getPageItem {| slug := "missing" |})] |} /\
  run Example.footer_down (getStaticProps (context_of "about" Undefined)) 0
  = {| outcome := Throw (Failure "footer unavailable"); world := 2;
       trace := [Issued (getPageItem {| slug := "about" |});
                 Resolved (getPageItem {| slug := "about" |});
                 Issued getFooterItem;
                 Rejected getFooterItem] |}.
Proof.
  split; [|split].
  - apply (fetch_failure_propagates (H:=Example.types) Example.offline 0 0
             (Failure "network") Example.getPaths).
    reflexivity.
  - apply (fetch_failure_propagates (H:=Example.types) Example.cms 0 1
             (Failure "page not found") Example.getPaths).
    reflexivity.
  - eapply (fetch_failure_propagates (H:=Example.types) Example.footer_down 0 2
              (Failure "footer unavailable") Example.getPaths);
      reflexivity.
Defined.

(** C4: for a slug whose page query resolves with data [page] and
    whose footer query then resolves with data [footer],
    [getStaticProps] returns [{props: {data, footer, preview}}] with
    [data] the [PageItem] of [page], [footer] the [FooterItem] of
    [footer], both as fetched, and [preview] the preview flag. *)
Theorem getStaticProps_passes_through `{ExternalTypes} {World : Type}
    (cms : Cms World) (w w1 w2 : World) (s : string) (pv : Maybe bool)
    (page : TPageItemQuery) (footer : TFooterItemQuery) :
  cms _ (getPageItem {| slug := s |}) w = (Ok {| data := Value page |}, w1) ->
  cms _ getFooterItem w1 = (Ok {| data := Value footer |}, w2) ->
  outcome (run cms (getStaticProps (context_of s pv)) w)
  = Ok {| props := {| props_data := PageItem page;
                      props_footer := FooterItem footer;
                      props_preview := default_to false pv |} |}.
Proof.
  intros Hpage Hfooter.
  by rewrite (getStaticProps_resolved _ _ _ _ _ _ _ _ Hpage Hfooter).
Qed.

Lemma getStaticProps_passes_through_witness :
  outcome (run Example.cms (getStaticProps (context_of "about" (Value true))) 0)
  = Ok {| props := {| props_data := Value Example.about;
                      props_footer := "footer" : @TFooterItem Example.types;
                      props_preview := Value true |} |}.
Proof.
  apply (getStaticProps_passes_through Example.cms 0 1 2 "about" (Value true)
           {| PageItem := Value Example.about |}
           (@Build_TFooterItemQuery Example.types "footer"));
    reflexivity.
Defined.

(** C7: [getStaticProps] issues [getPageItem] for the slug first and
    once; only after that query has resolved does it issue
    [getFooterItem], once, in exactly the CMS state the first query
    left; a rejected query ends the run. *)
Theorem getStaticProps_fetches_in_sequence `{ExternalTypes} {World : Type}
    (cms : Cms World) (w : World) (s : string) (pv : Maybe bool) :
  let page_call := getPageItem {| slug := s |} in
  let r := run cms (getStaticProps (context_of s pv)) w in
  match cms _ page_call w with
  | (Throw _, w1) =>
      trace r = [Issued page_call; Rejected page_call] /\ world r = w1
  | (Ok _, w1) =>
      match cms _ getFooterItem w1 with
      | (Throw _, w2) =>
          trace r = [Issued page_call; Resolved page_call;
                     Issued getFooterItem; Rejected getFooterItem] /\
          world r = w2
      | (Ok _, w2) =>
          trace r = [Issued page_call; Resolved page_call;
                     Issued getFooterItem; Resolved getFooterItem] /\
          world r = w2
      end
  end.
Proof.
  intros page_call r. subst r page_call.
  fetch cms (getPageItem {| slug := s |}) w.
  - fetch cms (@getFooterItem _) w0.
    + by rewrite (getStaticProps_resolved _ _ _ _ _ _ _ _ Hcall Hcall0).
    + unfold getStaticProps. cbn. rewrite Hcall. cbn. by rewrite Hcall0.
  - unfold getStaticProps. cbn. by rewrite Hcall.
Qed.

(** C9: whatever the CMS answers and whatever the path resolver makes
    of it, every result of [getStaticPaths] has [fallback] false; and
    there is a result whenever [getLinks] resolves and the resolver
    returns. *)
Theorem getStaticPaths_fallback_false `{ExternalTypes} {World : Type}
    (cms : Cms World) (w : World)
    (getPaths : Maybe (list TLinkEntry) -> Result (list TPath)) :
  (forall result : TStaticPaths,
     outcome (run cms (getStaticPaths getPaths) w) = Ok result ->
     fallback result = false) /\
  (forall response w1 entries resolved,
     cms _ getLinks w = (Ok response, w1) ->
     optional (fun d => read "items" items (Links d)) (data response)
     = Ok entries ->
     getPaths entries = Ok resolved ->
     outcome (run cms (getStaticPaths getPaths) w)
     = Ok {| paths := resolved; fallback := false |}).
Proof.
  split.
  - intros result. fetch cms (@getLinks _) w.
    + rewrite (getStaticPaths_resolved _ _ _ _ _ Hcall). cbn.
      destruct (optional _ (data response)) as [entries|]; cbn; [|done].
      destruct (getPaths entries); cbn; [|done].
      intros [= <-]. reflexivity.
    + unfold getStaticPaths. cbn. by rewrite Hcall.
  - intros response w1 entries resolved Hlinks Hentries Hpaths.
    rewrite (getStaticPaths_resolved _ _ _ _ _ Hlinks). cbn.
    rewrite Hentries. cbn. by rewrite Hpaths.
Qed.

Lemma getStaticPaths_fallback_false_witness :
  exists result : TStaticPaths,
    outcome (run Example.cms (getStaticPaths (H:=Example.types) Example.getPaths) 0)
    = Ok result /\
    fallback result = false.
Proof.
  eexists. split; [reflexivity|].
  apply (getStaticPaths_fallback_false (H:=Example.types)
           Example.cms 0 Example.getPaths).
  reflexivity.
Defined.

(** C10: in every result of [getStaticProps], [preview] is false when
    the context has no [preview], and is the context's [preview],
    unchanged, when it has one; and there is a result whenever the
    context has its [params] and both queries resolve with data. *)
Theorem getStaticProps_preview `{ExternalTypes} {World : Type}
    (cms : Cms World) (w : World) (context : TStaticPropsContext) :
  (forall result : TStaticProps,
     outcome (run cms (getStaticProps context) w) = Ok result ->
     (preview context = Undefined ->
      props_preview (props result) = Value false) /\
     (preview context <> Undefined ->
      props_preview (props result) = preview context)) /\
  (forall s page w1 footer w2,
     params context = Value {| slug := s |} ->
     cms _ (getPageItem {| slug := s |}) w = (Ok {| data := Value page |}, w1) ->
     cms _ getFooterItem w1 = (Ok {| data := Value footer |}, w2) ->
     exists result, outcome (run cms (getStaticProps context) w) = Ok result).
Proof.
  split.
  - intros result. destruct context as [[| |[s]] pv]; try done.
    change (outcome (run cms (getStaticProps (context_of s pv)) w) = Ok result
            -> (pv = Undefined -> props_preview (props result) = Value false) /\
               (pv <> Undefined -> props_preview (props result) = pv)).
    fetch cms (getPageItem {| slug := s |}) w.
    + fetch cms (@getFooterItem _) w0.
      * rewrite (getStaticProps_resolved _ _ _ _ _ _ _ _ Hcall Hcall0). cbn.
        destruct (data response), (data response0); cbn; try done.
        intros [= <-]; cbn. by destruct pv.
      * unfold getStaticProps. cbn. rewrite Hcall. cbn. by rewrite Hcall0.
    + unfold getStaticProps. cbn. by rewrite Hcall.
  - intros s page w1 footer w2 Hparams Hpage Hfooter.
    destruct context as [ps pv]. cbn in Hparams. subst ps.
    change (exists result,
              outcome (run cms (getStaticProps (context_of s pv)) w) = Ok result).
    rewrite (getStaticProps_resolved _ _ _ _ _ _ _ _ Hpage Hfooter).
    eexists. reflexivity.
Qed.

Lemma getStaticProps_preview_witness :
  (exists result,
     outcome (run Example.cms (getStaticProps (context_of "about" Undefined)) 0)
     = Ok result /\
     props_preview (props result) = Value false) /\
  (exists result,
     outcome (run Example.cms (getStaticProps (context_of "about" (Value true))) 0)
     = Ok result /\
     props_preview (props result) = Value true).
Proof.
  split; eexists; (split; [reflexivity|]).
  - by apply (getStaticProps_preview (H:=Example.types) Example.cms 0
                (context_of "about" Undefined)).
  - by apply (getStaticProps_preview (H:=Example.types) Example.cms 0
                (context_of "about" (Value true))).
Defined.

(** C6: once [getLinks] has resolved with the link entries [entries],
    the path list of [getStaticPaths] is what the path resolver returns
    for [data?.Links.items], after that one query; with the resolver of
    the spec it is the image under the mapping of the entries that pass
    the test, each entry giving at most one path, in the order of the
    entries. *)
Theorem getStaticPaths_paths_from_links `{ExternalTypes} {World : Type}
    (cms : Cms World) (w w1 : World)
    (keep : TLinkEntry -> bool) (toPath : TLinkEntry -> TPath)
    (entries : list TLinkEntry) :
  cms _ getLinks w
  = (Ok {| data := Value {| Links := Value {| items := Value entries |} |} |},
     w1) ->
  (forall getPaths,
     run cms (getStaticPaths getPaths) w
     = {| outcome := resolved ← getPaths (Value entries);
                     mret {| paths := resolved; fallback := false |};
          world := w1;
          trace := [Issued getLinks; Resolved getLinks] |}) /\
  outcome (run cms (getStaticPaths (Services.getPaths keep toPath)) w)
  = Ok {| paths := toPath <$> List.filter keep entries; fallback := false |} /\
  List.filter keep entries `sublist_of` entries /\
  length (toPath <$> List.filter keep entries) <= length entries.
Proof.
  intros Hlinks. pose proof (filter_sublist keep entries) as Hsub.
  repeat split.
  - intros getPaths. by rewrite (getStaticPaths_resolved _ _ _ _ _ Hlinks).
  - by rewrite (getStaticPaths_resolved _ _ _ _ _ Hlinks).
  - exact Hsub.
  - rewrite length_fmap. by apply sublist_length.
Qed.

Lemma getStaticPaths_paths_from_links_witness :
  outcome (run Example.cms (getStaticPaths (H:=Example.types) Example.getPaths) 0)
  = Ok {| paths := [ {| slug := "about" |}; {| slug := "team" |} ]
                   : list (@TPath Example.types);
          fallback := false |}.
Proof.
  apply (getStaticPaths_paths_from_links (H:=Example.types) Example.cms 0 1
           Example.keep Example.toPath Example.entries).
  reflexivity.
Defined.

(** *** The page component *)

Section Component.
Context `{ExternalTypes} (isPageType : Maybe string -> bool).

(** The tree [Container] returns once the content is there. *)
Lemma Container_defined props d c :
  props_data props = Value d ->
  content d = Value c ->
  Container isPageType props
  = Ok (Layout (props_footer props)
          [ SEO (title c) (description c) Labs;
            if isPageType (component c)
            then Page (props_data props) (props_preview props)
                      (fun blok => BlokProvider blok)
            else Nothing ]).
Proof.
  intros Hdata Hcontent. unfold Container.
  rewrite Hdata. cbn. by rewrite Hcontent.
Qed.

End Component.

(** C5, as the code has it: on an input whose [data] and
    [data.content] are defined, [Container] returns the layout with the
    footer, holding the SEO metadata with the title and description of
    [data.content] and, exactly when [isPageType] accepts
    [data.content.component], the page whose render function hands each
    blok of the union [TRawBlok], of whatever tag, to [BlokProvider];
    otherwise nothing stands in the page's place. *)
Theorem Container_composes `{ExternalTypes}
    (isPageType : Maybe string -> bool) (props : TContainerProps)
    (d : TPageItem) (c : TPageContent) :
  props_data props = Value d ->
  content d = Value c ->
  exists page : Element,
    Container isPageType props
    = Ok (Layout (props_footer props)
            [SEO (title c) (description c) Labs; page]) /\
    (isPageType (component c) = true ->
     page = Page (props_data props) (props_preview props)
                 (fun blok : TRawBlok => BlokProvider blok)) /\
    (isPageType (component c) = false -> page = Nothing).
Proof.
  intros Hdata Hcontent.
  rewrite (Container_defined isPageType props d c Hdata Hcontent).
  eexists. split; [reflexivity|].
  by destruct (isPageType (component c)).
Qed.

Lemma Container_composes_witness :
  Container Example.isPageType (Example.props (Value Example.about))
  = Ok (Layout ("footer" : @TFooterItem Example.types)
          [ SEO (Value "About") (Value "About the lab") Labs;
            Page (Value Example.about) (Value false)
                 (fun blok => BlokProvider blok) ]).
Proof.
  destruct (Container_composes (H:=Example.types) Example.isPageType
              (Example.props (Value Example.about)) Example.about
              {| title := Value "About";
                 description := Value "About the lab";
                 component := Value "page" |} eq_refl eq_refl)
    as (page & -> & Hpage & _).
  by rewrite (Hpage eq_refl).
Defined.

(** C5, as the claim has it, fails: with [data] null the component
    throws whatever [isPageType] is, and on a content that the page type
    test of the example rejects the tree holds no page and no blok
    renderer. *)
Lemma Container_composes_counterexample :
  (forall isPageType : Maybe string -> bool,
     Container (H:=Example.types) isPageType (Example.props Null)
     = Throw (TypeError "content")) /\
  Container Example.isPageType (Example.props (Value Example.article))
  = Ok (Layout ("footer" : @TFooterItem Example.types)
          [SEO (Value "News") Undefined Labs; Nothing]).
Proof. split; reflexivity. Qed.

(** C8: [Container] reads [data.content.title] before anything guards
    it.  With [data] null or undefined it throws on reading [content];
    with [data.content] null or undefined it throws on reading [title];
    in both cases whatever [isPageType] is, which is not consulted.  It
    returns a tree exactly when both are defined. *)
Theorem Container_reads_content_unguarded `{ExternalTypes}
    (isPageType : Maybe string -> bool) (props : TContainerProps) :
  match props_data props with
  | Value d =>
      match content d with
      | Value c => exists tree, Container isPageType props = Ok tree
      | _ => Container isPageType props = Throw (TypeError "title")
      end
  | _ => Container isPageType props = Throw (TypeError "content")
  end.
Proof.
  destruct (props_data props) as [| |d] eqn:Hdata;
    [unfold Container; by rewrite Hdata ..|].
  destruct (content d) as [| |c] eqn:Hcontent;
    [unfold Container; rewrite Hdata; cbn; by rewrite Hcontent ..|].
  rewrite (Container_defined isPageType props d c Hdata Hcontent).
  by eexists.
Qed.

End SlugPageSpec.


(** ** More on the sticky-notes adapter *)

Module StickyNotesEdges.
Import StickyNotes.

Section WithLink.
Context {TLink : Type}.

Lemma getStickyNotesItemProps_agree (f g : TLink -> string) item :
  getStickyNotesItemProps f item = getStickyNotesItemProps g item
  <-> f (raw_link item) = g (raw_link item).
Proof.
  unfold getStickyNotesItemProps. split.
  - by intros [= Hlink].
  - by intros ->.
Qed.


End WithLink.

(** X1: the adapter applies [getUrl] to the links of the record's items
    and to nothing else: two resolvers give the same props exactly when
    they agree on the link of every item. *)
Theorem getStickyNotesProps_resolver_on_item_links {TLink : Type}
    (f g : TLink -> string) (data : TStickyNotesRawData TLink) :
  getStickyNotesProps f data = getStickyNotesProps g data
  <-> Forall (fun item => f (raw_link item) = g (raw_link item))
             (data_items data).
Proof.
  unfold getStickyNotesProps. split.
  - intros [= Hitems]. induction (data_items data) as [|item rest IH];
      [constructor|].
    cbn in Hitems. injection Hitems as Hitem Hrest. constructor.
    + exact Hitem.
    + by apply IH.
  - intros Hall. f_equal. induction Hall as [|item rest Hitem _ IH]; [done|].
    cbn. f_equal; [|exact IH]. by apply getStickyNotesItemProps_agree.
Qed.



End StickyNotesEdges.

(** ** The hooks at the corners of their inputs *)

Module SlugPageEdges.
Import Bloks Api SlugPage SlugPageSpec.

#[local] Ltac settle cms call w :=
  let x := fresh "response" in
  let e := fresh "e" in
  let w' := fresh "w" in
  let Hcall := fresh "Hcall" in
  destruct (cms _ call w) as [[x|e] w'] eqn:Hcall.

Section Hooks.
Context `{ExternalTypes} {World : Type}.
Implicit Types (cms : Cms World) (w : World).

(** [getStaticProps] once the page query has resolved and the footer
    query has been rejected. *)
Lemma getStaticProps_footer_rejected cms w s pv page_response w1 e w2 :
  cms _ (getPageItem {| slug := s |}) w = (Ok page_response, w1) ->
  cms _ getFooterItem w1 = (Throw e, w2) ->
  run cms (getStaticProps (context_of s pv)) w
  = {| outcome := Throw e;
       world := w2;
       trace := [Issued (getPageItem {| slug := s |});
                 Resolved (getPageItem {| slug := s |});
                 Issued getFooterItem;
                 Rejected getFooterItem] |}.
Proof.
  intros Hpage Hfooter. unfold getStaticProps. cbn.
  rewrite Hpage. cbn. by rewrite Hfooter.
Qed.

(** [getStaticProps] once the page query has been rejected. *)
Lemma getStaticProps_page_rejected cms w s pv e w1 :
  cms _ (getPageItem {| slug := s |}) w = (Throw e, w1) ->
  run cms (getStaticProps (context_of s pv)) w
  = {| outcome := Throw e;
       world := w1;
       trace := [Issued (getPageItem {| slug := s |});
                 Rejected (getPageItem {| slug := s |})] |}.
Proof. intros Hpage. unfold getStaticProps. cbn. by rewrite Hpage. Qed.

End Hooks.

(** X3: a context without [params] makes [getStaticProps] fail with a
    [TypeError] before any query is issued: the trace is empty and the
    CMS is left as it was. *)
Theorem getStaticProps_without_params `{ExternalTypes} {World : Type}
    (cms : Cms World) (w : World) (context : TStaticPropsContext) :
  (forall p, params context <> Value p) ->
  run cms (getStaticProps context) w
  = {| outcome := Throw (TypeError "slug"); world := w; trace := [] |}.
Proof.
  intros Habsent. unfold getStaticProps.
  destruct (params context) as [| |p] eqn:Hparams; try done.
  by destruct (Habsent p).
Qed.

Lemma getStaticProps_without_params_witness :
  run Example.cms
      (getStaticProps {| params := Undefined; preview := Value true |}) 0
  = {| outcome := Throw (TypeError "slug"); world := 0; trace := [] |}.
Proof.
  apply (getStaticProps_without_params (H:=Example.types)). by intros p.
Defined.

(** X4: when the page query resolves without [data], [getStaticProps]
    still issues the footer query and only then fails: with the footer
    query's own error if it is rejected, else with the [TypeError] of
    reading [PageItem]. *)
Theorem getStaticProps_page_data_absent `{ExternalTypes} {World : Type}
    (cms : Cms World) (w w1 : World) (s : string) (pv : Maybe bool)
    (response : TResponse TPageItemQuery) :
  cms _ (getPageItem {| slug := s |}) w = (Ok response, w1) ->
  (forall d, data response <> Value d) ->
  let r := run cms (getStaticProps (context_of s pv)) w in
  let issued := [Issued (getPageItem {| slug := s |});
                 Resolved (getPageItem {| slug := s |});
                 Issued getFooterItem] in
  match cms _ getFooterItem w1 with
  | (Ok _, w2) =>
      outcome r = Throw (TypeError "PageItem") /\
      trace r = issued ++ [Resolved getFooterItem] /\ world r = w2
  | (Throw e, w2) =>
      outcome r = Throw e /\
      trace r = issued ++ [Rejected getFooterItem] /\ world r = w2
  end.
Proof.
  intros Hpage Habsent r issued. subst r issued.
  settle cms (@getFooterItem _) w1.
  - rewrite (getStaticProps_resolved _ _ _ _ _ _ _ _ Hpage Hcall). cbn.
    destruct (data response) as [| |d] eqn:Hdata; try done.
    by destruct (Habsent d).
  - by rewrite (getStaticProps_footer_rejected _ _ _ _ _ _ _ _ Hpage Hcall).
Qed.

Lemma getStaticProps_page_data_absent_witness :
  outcome (run Corner.no_data (getStaticProps (context_of "about" Undefined)) 0)
  = Throw (TypeError "PageItem") /\
  trace (run Corner.no_data (getStaticProps (context_of "about" Undefined)) 0)
  = [Issued (getPageItem {| slug := "about" |});
     Resolved (getPageItem {| slug := "about" |});
     Issued (@getFooterItem Example.types)] ++ [Resolved getFooterItem] /\
  world (run Corner.no_data (getStaticProps (context_of "about" Undefined)) 0)
  = 2.
Proof.
  apply (getStaticProps_page_data_absent (H:=Example.types) Corner.no_data 0 1
           "about" Undefined {| data := Undefined |}).
  - reflexivity.
  - by intros d.
Defined.

(** X5: when the page query resolves with [data] and the footer query
    resolves without, [getStaticProps] fails with the [TypeError] of
    reading [FooterItem]: no props are returned for a page whose footer
    is missing. *)
Theorem getStaticProps_footer_data_absent `{ExternalTypes} {World : Type}
    (cms : Cms World) (w w1 w2 : World) (s : string) (pv : Maybe bool)
    (page : TPageItemQuery) (response : TResponse TFooterItemQuery) :
  cms _ (getPageItem {| slug := s |}) w = (Ok {| data := Value page |}, w1) ->
  cms _ getFooterItem w1 = (Ok response, w2) ->
  (forall d, data response <> Value d) ->
  outcome (run cms (getStaticProps (context_of s pv)) w)
  = Throw (TypeError "FooterItem").
Proof.
  intros Hpage Hfooter Habsent.
  rewrite (getStaticProps_resolved _ _ _ _ _ _ _ _ Hpage Hfooter). cbn.
  destruct (data response) as [| |d] eqn:Hdata; try done.
  by destruct (Habsent d).
Qed.

Lemma getStaticProps_footer_data_absent_witness :
  outcome (run Corner.footer_without_data
               (getStaticProps (context_of "about" Undefined)) 0)
  = Throw (TypeError "FooterItem").
Proof.
  apply (getStaticProps_footer_data_absent (H:=Example.types)
           Corner.footer_without_data 0 1 2 "about" Undefined
           {| PageItem := Value Example.about |} {| data := Null |}).
  - reflexivity.
  - reflexivity.
  - by intros d.
Defined.

(** X6: when the links query resolves without [data], [getStaticPaths]
    does not fail by itself: the optional chain hands [undefined] to the
    path resolver, also for a null [data], and the hook's outcome is the
    resolver's. *)
Theorem getStaticPaths_data_absent `{ExternalTypes} {World : Type}
    (cms : Cms World) (w w1 : World)
    (getPaths : Maybe (list TLinkEntry) -> Result (list TPath))
    (response : TResponse TLinksQuery) :
  cms _ getLinks w = (Ok response, w1) ->
  (forall d, data response <> Value d) ->
  outcome (run cms (getStaticPaths getPaths) w)
  = match getPaths Undefined with
    | Ok resolved => Ok {| paths := resolved; fallback := false |}
    | Throw e => Throw e
    end.
Proof.
  intros Hlinks Habsent.
  rewrite (getStaticPaths_resolved _ _ _ _ _ Hlinks). cbn.
  destruct (data response) as [| |d] eqn:Hdata; try done.
  by destruct (Habsent d).
Qed.

Lemma getStaticPaths_data_absent_witness :
  outcome (run Corner.no_data
               (getStaticPaths (H:=Example.types) Corner.lenient_getPaths) 0)
  = Ok {| paths := [] : list (@TPath Example.types); fallback := false |}.
Proof.
  apply (getStaticPaths_data_absent (H:=Example.types) Corner.no_data 0 1
           Corner.lenient_getPaths {| data := Null |}).
  - reflexivity.
  - by intros d.
Defined.

(** X7: the optional chain guards [data] only.  When the links query
    resolves with [data] but without [Links], [getStaticPaths] fails with
    the [TypeError] of reading [items], whatever the path resolver is:
    the resolver is not reached. *)
Theorem getStaticPaths_links_absent `{ExternalTypes} {World : Type}
    (cms : Cms World) (w w1 : World)
    (getPaths : Maybe (list TLinkEntry) -> Result (list TPath))
    (query : TLinksQuery) :
  cms _ getLinks w = (Ok {| data := Value query |}, w1) ->
  (forall entries, Links query <> Value entries) ->
  run cms (getStaticPaths getPaths) w
  = {| outcome := Throw (TypeError "items");
       world := w1;
       trace := [Issued getLinks; Resolved getLinks] |}.
Proof.
  intros Hlinks Habsent.
  rewrite (getStaticPaths_resolved _ _ _ _ _ Hlinks). cbn.
  destruct (Links query) as [| |entries] eqn:HLinks; try done.
  by destruct (Habsent entries).
Qed.

Lemma getStaticPaths_links_absent_witness :
  run Corner.no_links
      (getStaticPaths (H:=Example.types) Corner.lenient_getPaths) 0
  = {| outcome := Throw (TypeError "items");
       world := 1;
       trace := [Issued getLinks; Resolved getLinks] |}.
Proof.
  apply (getStaticPaths_links_absent (H:=Example.types) Corner.no_links 0 1
           Corner.lenient_getPaths {| Links := Null |}).
  - reflexivity.
  - by intros entries.
Defined.

(** X8: every run of [getStaticPaths] makes the links query and no
    other: the trace is that one query and its settlement, and the CMS is
    left in the state that query left, whatever the answer and whatever
    the path resolver does with it. *)
Theorem getStaticPaths_single_query `{ExternalTypes} {World : Type}
    (cms : Cms World) (w : World)
    (getPaths : Maybe (list TLinkEntry) -> Result (list TPath)) :
  let r := run cms (getStaticPaths getPaths) w in
  world r = (cms _ getLinks w).2 /\
  (trace r = [Issued getLinks; Resolved getLinks] \/
   trace r = [Issued getLinks; Rejected getLinks]).
Proof.
  intros r. subst r. settle cms (@getLinks _) w.
  - rewrite (getStaticPaths_resolved _ _ _ _ _ Hcall). cbn. by split; [|left].
  - unfold getStaticPaths. cbn. rewrite Hcall. cbn. by split; [|right].
Qed.

(** X9: the [preview] of returned props is never [undefined]: the
    default has replaced it, so the props hold a value for every key. *)
Theorem getStaticProps_preview_defined `{ExternalTypes} {World : Type}
    (cms : Cms World) (w : World) (context : TStaticPropsContext)
    (result : TStaticProps) :
  outcome (run cms (getStaticProps context) w) = Ok result ->
  props_preview (props result) <> Undefined.
Proof.
  destruct context as [[| |[s]] pv]; try done.
  change (outcome (run cms (getStaticProps (context_of s pv)) w) = Ok result
          -> props_preview (props result) <> Undefined).
  settle cms (getPageItem {| slug := s |}) w.
  - settle cms (@getFooterItem _) w0.
    + rewrite (getStaticProps_resolved _ _ _ _ _ _ _ _ Hcall Hcall0). cbn.
      destruct (data response), (data response0); cbn; try done.
      intros [= <-]; cbn. by destruct pv.
    + by rewrite (getStaticProps_footer_rejected _ _ _ _ _ _ _ _ Hcall Hcall0).
  - by rewrite (getStaticProps_page_rejected _ _ _ _ _ _ Hcall).
Qed.

Lemma getStaticProps_preview_defined_witness :
  outcome (run Example.cms (getStaticProps (context_of "about" Undefined)) 0)
  = Ok {| props := Example.props (Value Example.about) |} /\
  props_preview (Example.props (Value Example.about)) <> Undefined.
Proof.
  split; [reflexivity|].
  apply (getStaticProps_preview_defined (H:=Example.types) Example.cms 0
           (context_of "about" Undefined)
           {| props := Example.props (Value Example.about) |}).
  reflexivity.
Defined.

(** X10: the preview flag never reaches the CMS.  For the same slug, two
    runs that differ in the context's [preview] issue the same queries,
    leave the CMS in the same state, and either fail with the same error
    or return the same [data] and [footer]. *)
Theorem getStaticProps_preview_not_fetched `{ExternalTypes} {World : Type}
    (cms : Cms World) (w : World) (s : string) (pv1 pv2 : Maybe bool) :
  let r1 := run cms (getStaticProps (context_of s pv1)) w in
  let r2 := run cms (getStaticProps (context_of s pv2)) w in
  trace r1 = trace r2 /\
  world r1 = world r2 /\
  match outcome r1, outcome r2 with
  | Ok a, Ok b =>
      props_data (props a) = props_data (props b) /\
      props_footer (props a) = props_footer (props b)
  | Throw e1, Throw e2 => e1 = e2
  | _, _ => False
  end.
Proof.
  intros r1 r2. subst r1 r2.
  settle cms (getPageItem {| slug := s |}) w.
  - settle cms (@getFooterItem _) w0.
    + rewrite !(getStaticProps_resolved _ _ _ _ _ _ _ _ Hcall Hcall0). cbn.
      by destruct (data response), (data response0).
    + by rewrite !(getStaticProps_footer_rejected _ _ _ _ _ _ _ _ Hcall Hcall0).
  - by rewrite !(getStaticProps_page_rejected _ _ _ _ _ _ Hcall).
Qed.

(** X11: [Container] consults [isPageType] at most at
    [data.content.component]: two page type tests that agree there give
    the same outcome, tree or error.  The short-circuit value of the
    optional chain in the guard is never what the test sees. *)
Theorem Container_guard_on_component `{ExternalTypes}
    (isPageType1 isPageType2 : Maybe string -> bool)
    (props : TContainerProps) :
  (forall d c,
     props_data props = Value d -> content d = Value c ->
     isPageType1 (component c) = isPageType2 (component c)) ->
  Container isPageType1 props = Container isPageType2 props.
Proof.
  intros Hagree.
  destruct (props_data props) as [| |d] eqn:Hdata;
    [unfold Container; by rewrite Hdata ..|].
  destruct (content d) as [| |c] eqn:Hcontent;
    [unfold Container; rewrite Hdata; cbn; by rewrite Hcontent ..|].
  rewrite !(Container_defined _ props d c Hdata Hcontent).
  by rewrite (Hagree d c).
Qed.

Lemma Container_guard_on_component_witness :
  Container (H:=Example.types) Example.isPageType
            (Example.props (Value Example.about))
  = Container (fun _ => true) (Example.props (Value Example.about)).
Proof.
  apply (Container_guard_on_component (H:=Example.types)).
  intros d c [= <-] [= <-]. reflexivity.
Defined.

(** X12: a page the CMS does not have gets through the data hook and
    fails in the component.  When the page query resolves with a null or
    undefined [PageItem] and the footer query resolves with data,
    [getStaticProps] returns props, and [Container] on those props throws
    the [TypeError] of reading [content]. *)
Theorem missing_page_fails_in_Container `{ExternalTypes} {World : Type}
    (cms : Cms World) (w w1 w2 : World) (s : string) (pv : Maybe bool)
    (page : TPageItemQuery) (footer : TFooterItemQuery)
    (isPageType : Maybe string -> bool) :
  cms _ (getPageItem {| slug := s |}) w = (Ok {| data := Value page |}, w1) ->
  cms _ getFooterItem w1 = (Ok {| data := Value footer |}, w2) ->
  (forall item, PageItem page <> Value item) ->
  exists result : TStaticProps,
    outcome (run cms (getStaticProps (context_of s pv)) w) = Ok result /\
    Container isPageType (props result) = Throw (TypeError "content").
Proof.
  intros Hpage Hfooter Habsent.
  rewrite (getStaticProps_resolved _ _ _ _ _ _ _ _ Hpage Hfooter). cbn.
  eexists. split; [reflexivity|]. unfold Container. cbn.
  destruct (PageItem page) as [| |item] eqn:Hitem; try done.
  by destruct (Habsent item).
Qed.

Lemma missing_page_fails_in_Container_witness :
  exists result : TStaticProps,
    outcome (run Corner.unknown_page
                 (getStaticProps (context_of "nowhere" Undefined)) 0)
    = Ok result /\
    Container (H:=Example.types) Example.isPageType (props result)
    = Throw (TypeError "content").
Proof.
  apply (missing_page_fails_in_Container (H:=Example.types)
           Corner.unknown_page 0 1 2 "nowhere" Undefined
           {| PageItem := Null |} (@Build_TFooterItemQuery Example.types "footer")).
  - reflexivity.
  - reflexivity.
  - by intros item.
Defined.

(** X13: what the CMS answers is what the page shows.  When the page
    query resolves with a page that has content and the footer query
    resolves with data, [Container] on the props of [getStaticProps]
    returns the layout with the fetched footer and the SEO metadata of
    the fetched content. *)
Theorem fetched_page_renders `{ExternalTypes} {World : Type}
    (cms : Cms World) (w w1 w2 : World) (s : string) (pv : Maybe bool)
    (item : TPageItem) (c : TPageContent) (footer : TFooterItemQuery)
    (isPageType : Maybe string -> bool) :
  cms _ (getPageItem {| slug := s |}) w
  = (Ok {| data := Value {| PageItem := Value item |} |}, w1) ->
  cms _ getFooterItem w1 = (Ok {| data := Value footer |}, w2) ->
  content item = Value c ->
  exists (result : TStaticProps) (page : Element),
    outcome (run cms (getStaticProps (context_of s pv)) w) = Ok result /\
    Container isPageType (props result)
    = Ok (Layout (FooterItem footer)
            [SEO (title c) (description c) Labs; page]) /\
    (isPageType (component c) = true ->
     page = Page (Value item) (default_to false pv)
                 (fun blok : TRawBlok => BlokProvider blok)).
Proof.
  intros Hpage Hfooter Hcontent.
  rewrite (getStaticProps_resolved _ _ _ _ _ _ _ _ Hpage Hfooter). cbn.
  set (fetched := {| props_data := Value item;
                     props_footer := FooterItem footer;
                     props_preview := default_to false pv |}).
  exists {| props := fetched |}.
  exists (if isPageType (component c)
          then Page (Value item) (default_to false pv)
                    (fun blok => BlokProvider blok)
          else Nothing).
  split; [reflexivity|]. split.
  - exact (Container_defined isPageType fetched item c eq_refl Hcontent).
  - by intros ->.
Qed.

Lemma fetched_page_renders_witness :
  exists (result : TStaticProps) (page : Element),
    outcome (run Example.cms (getStaticProps (context_of "about" Undefined)) 0)
    = Ok result /\
    Container (H:=Example.types) Example.isPageType (props result)
    = Ok (Layout ("footer" : @TFooterItem Example.types)
            [SEO (Value "About") (Value "About the lab") Labs; page]) /\
    (true = true ->
     page = Page (Value Example.about) (Value false)
                 (fun blok : TRawBlok => BlokProvider blok)).
Proof.
  apply (fetched_page_renders (H:=Example.types) Example.cms 0 1 2 "about"
           Undefined Example.about
           {| title := Value "About";
              description := Value "About the lab";
              component := Value "page" |}
           (@Build_TFooterItemQuery Example.types "footer")
           Example.isPageType); reflexivity.
Defined.

End SlugPageEdges.
